(** * GraphIcon: the graph/network glyph of the frontend icon set

    Shallow embedding of [src/frontend/src/components/icons/GraphIcon.tsx]
    and of the data file [files/fem_files/sesam/single_beam.xml] as far as
    the component can see it.

    The component is one arrow function whose body is a JSX expression.
    JSX is sugar for calls of the element factory, [React.createElement],
    made in source order: the five children first, the enclosing [svg]
    last.  The calls are threaded through a small state-and-exception
    monad [JS] so that what the component does to its surroundings, and
    whether it can throw, are statements about the embedding. *)

From Stdlib Require Import ZArith.
From stdpp Require Import base option strings list gmap fin_maps.

Local Open Scope string_scope.
Set Warnings "-register-all".

(** ** Values of the host language *)

(** What a caller can store under an attribute name.  Numbers are kept
    to the integers; objects are their own-property lists.  The component
    never inspects a value, so nothing below looks inside one. *)
Inductive JsValue : Type :=
  | VUndefined
  | VNull
  | VBool (b : bool)
  | VNum (n : Z)
  | VStr (s : string)
  | VObj (fields : list (string * JsValue)).

(** [React.SVGProps<SVGSVGElement>]: an object used as a map from
    attribute names to values, every attribute optional. *)
Abbreviation SVGProps := (gmap string JsValue).

(** ** Elements *)

(** The object the element factory returns.  React keeps the child
    elements inside the props object, under the name [children]; here the
    two are held apart: [props] is the props object without that entry,
    that is the attributes, and [children] is the entry itself, the child
    elements in document order (none when the entry is missing). *)
Inductive Element : Type :=
  mkElement { type : string;
              props : gmap string JsValue;
              children : list Element }.

(** ** Surroundings of a call *)

(** Everything a call could read or write besides its argument and its
    result: the data files of the repository, by path, and the mutable
    bindings reachable from module or global scope. *)
Record World : Type :=
  mkWorld { files : gmap string string;
            globals : gmap string JsValue }.

Definition write_file (path contents : string) (w : World) : World :=
  {| files := <[path := contents]> (files w); globals := globals w |}.

(** Path of the structural-analysis data file, relative to the repository
    root. *)
Definition single_beam_xml : string := "files/fem_files/sesam/single_beam.xml".

(** ** The monad of calls *)

Module Except.

Inductive t (A : Type) : Type :=
  | ok (a : A)
  | error (thrown : JsValue).
Arguments ok {A} a.
Arguments error {A} thrown.

Definition is_ok {A} (r : t A) : bool :=
  match r with ok _ => true | error _ => false end.

End Except.

(** A call runs in some world and either throws or returns a value
    together with the world it leaves behind. *)
Definition JS (A : Type) : Type := World → Except.t (A * World).

Definition ret {A} (a : A) : JS A := λ w, Except.ok (a, w).

Definition throw {A} (v : JsValue) : JS A := λ _, Except.error v.

Definition bind {A B} (m : JS A) (k : A → JS B) : JS B :=
  λ w, match m w with
       | Except.ok (a, w') => k a w'
       | Except.error v => Except.error v
       end.

Notation "'let*' x ':=' m 'in' k" := (bind m (λ x, k))
  (at level 10, x name, m at level 100, k at level 200).

(** Value and final world of a call, when it returns. *)
Definition value {A} (r : Except.t (A * World)) : option A :=
  match r with Except.ok (a, _) => Some a | Except.error _ => None end.

Definition final {A} (r : Except.t (A * World)) : option World :=
  match r with Except.ok (_, w) => Some w | Except.error _ => None end.

(** ** The element factory *)

Module React.

(** [React.createElement(type, config, ...children)] for a host tag:
    a fresh element carrying the attributes of [config] and the given
    children.  It reads and writes nothing else and does not throw.
    The factory files the children under the name [children] of the
    props object, which is the field [children] here, and splits the
    reserved names [key] and [ref] off; no attribute object in this
    file carries any of the three names. *)
Definition createElement (tag : string) (config : gmap string JsValue)
    (kids : list Element) : JS Element :=
  ret (mkElement tag config kids).

End React.

(** An attribute object written as a JSX attribute list with string
    literals: later attributes of the same name win, as in an object
    literal. *)
Definition attrs (l : list (string * string)) : gmap string JsValue :=
  foldl (λ m kv, <[kv.1 := VStr kv.2]> m) ∅ l.

(** ** The component *)

Definition GraphIcon (props : SVGProps) : JS Element :=
  let* rect1 := React.createElement "rect"
      (attrs [("width", "7"); ("height", "5"); ("rx", "0.6");
              ("transform", "matrix(0 -1 -1 0 22 21)");
              ("stroke", "currentColor"); ("strokeWidth", "1.5")]) [] in
  let* rect2 := React.createElement "rect"
      (attrs [("width", "7"); ("height", "5"); ("rx", "0.6");
              ("transform", "matrix(0 -1 -1 0 7 15.5)");
              ("stroke", "currentColor"); ("strokeWidth", "1.5")]) [] in
  let* rect3 := React.createElement "rect"
      (attrs [("width", "7"); ("height", "5"); ("rx", "0.6");
              ("transform", "matrix(0 -1 -1 0 22 10)");
              ("stroke", "currentColor"); ("strokeWidth", "1.5")]) [] in
  let* path1 := React.createElement "path"
      (attrs [("d", "M17 17.5H13.5C12.3954 17.5 11.5 16.6046 11.5 15.5V8.5C11.5 7.39543 12.3954 6.5 13.5 6.5H17");
              ("stroke", "currentColor"); ("strokeWidth", "1.5")]) [] in
  let* path2 := React.createElement "path"
      (attrs [("d", "M11.5 12H7");
              ("stroke", "currentColor"); ("strokeWidth", "1.5")]) [] in
  React.createElement "svg"
      (attrs [("width", "24px"); ("height", "24px"); ("strokeWidth", "1.5");
              ("viewBox", "0 0 24 24"); ("fill", "none");
              ("xmlns", "http://www.w3.org/2000/svg");
              ("color", "currentColor")])
      [rect1; rect2; rect3; path1; path2].

(** ** Observations on elements *)

(** An element together with all its descendants, in document order. *)
Fixpoint nodes (e : Element) : list Element :=
  match e with
  | mkElement _ _ kids => e :: flat_map nodes kids
  end.

(** [carried k v e]: some node of the tree [e] has attribute [k] with
    value [v]. *)
Definition carried (k : string) (v : JsValue) (e : Element) : Prop :=
  Exists (λ d, props d !! k = Some v) (nodes e).

Definition is_rect (e : Element) : bool := bool_decide (type e = "rect").

Definition rects (e : Element) : list Element := filter is_rect (children e).

Definition currentColor : JsValue := VStr "currentColor".

(** A stroked shape of the glyph: drawn in the inherited colour with the
    glyph's line weight. *)
Definition stroked (e : Element) : Prop :=
  props e !! "stroke" = Some currentColor ∧
  props e !! "strokeWidth" = Some (VStr "1.5").

(** A 7 by 5 rectangle with rounded corners. *)
Definition rounded_7x5 (e : Element) : Prop :=
  type e = "rect" ∧
  props e !! "width" = Some (VStr "7") ∧
  props e !! "height" = Some (VStr "5") ∧
  props e !! "rx" = Some (VStr "0.6") ∧
  children e = [].

(** Calling the component once for every attribute set of [history],
    in order, dropping the results. *)
Fixpoint invocations (history : list SVGProps) : JS unit :=
  match history with
  | [] => ret tt
  | p :: rest => let* _ := GraphIcon p in invocations rest
  end.


(** The nodes of the tree a call returns; none when it throws. *)
Definition rendered (props : SVGProps) (w : World) : list Element :=
  from_option nodes [] (value (GraphIcon props w)).

(** The attribute names written in the JSX of the component. *)
Definition vocabulary : gset string :=
  {["width"; "height"; "strokeWidth"; "viewBox"; "fill"; "xmlns"; "color";
    "rx"; "transform"; "stroke"; "d"]}.

Definition is_string (v : JsValue) : Prop := ∃ s, v = VStr s.

(** [Object.keys(element.props)]: the attribute names, and [children]
    when the element was given child elements. *)
Definition props_keys (e : Element) : gset string :=
  dom (props e) ∪ match children e with [] => ∅ | _ :: _ => {["children"]} end.

(** An element written out as data: a tag, its attributes as pairs of
    strings without repeated names, and its children. *)
Definition element (tag : string) (attributes : list (string * string))
    (kids : list Element) : Element :=
  mkElement tag (list_to_map (prod_map id VStr <$> attributes)) kids.

(** * Properties *)

(** ** Shared facts *)

(** The call returns, and leaves the world as it found it. *)
Lemma GraphIcon_final (p : SVGProps) (w : World) :
  final (GraphIcon p w) = Some w.
Proof. reflexivity. Qed.

(** The element returned is the same for every argument and world. *)
Lemma GraphIcon_value (p p' : SVGProps) (w w' : World) :
  value (GraphIcon p w) = value (GraphIcon p' w').
Proof. reflexivity. Qed.

Lemma GraphIcon_returns (p : SVGProps) (w : World) :
  ∃ e, GraphIcon p w = Except.ok (e, w).
Proof. eexists. reflexivity. Qed.

Lemma bind_ok {A B} (m : JS A) (k : A → JS B) (w w' : World) (a : A) :
  m w = Except.ok (a, w') → bind m k w = k a w'.
Proof. intros H. unfold bind. by rewrite H. Qed.

Lemma invocations_frame (history : list SVGProps) (w : World) :
  invocations history w = Except.ok (tt, w).
Proof.
  induction history as [|p rest IH]; simpl; [done|].
  destruct (GraphIcon_returns p w) as [e He].
  by rewrite (bind_ok _ _ _ _ _ He).
Qed.

(** ** Concrete calls *)

(** [<GraphIcon width="48px" />]: the rendered width is still 24px. *)
Example GraphIcon_width_48px :
  (e ← value (GraphIcon {["width" := VStr "48px"]} (mkWorld ∅ ∅));
   props e !! "width") = Some (VStr "24px").
Proof. reflexivity. Qed.

(** An attribute without a built-in value does not reach the output. *)
Example GraphIcon_className :
  (e ← value (GraphIcon {["className" := VStr "big"]} (mkWorld ∅ ∅));
   props e !! "className") = None.
Proof. reflexivity. Qed.

(** Ill-formed values are not looked at. *)
Example GraphIcon_ill_formed :
  Except.is_ok
    (GraphIcon {["viewBox" := VNull; "width" := VObj [("w", VBool true)];
                 "height" := VNum (-3)]} (mkWorld ∅ ∅)) = true.
Proof. reflexivity. Qed.

(** ** Attribute forwarding *)

(** C1, as the specification words it, fails, even read as weakly as
    possible: were supplied attributes forwarded, every supplied pair
    would be carried by some node of the output, yet with [width]
    supplied as 48px no node of the rendered tree has that width. *)
Lemma GraphIcon_forwarding_fails :
  ¬ (∀ (p : SVGProps) (w : World) (k : string) (v : JsValue),
       p !! k = Some v →
       ∃ e, value (GraphIcon p w) = Some e ∧ carried k v e).
Proof.
  intros H.
  destruct (H {["width" := VStr "48px"]} (mkWorld ∅ ∅) "width" (VStr "48px"))
    as (e & He & Hc); [done|].
  injection He as <-.
  unfold carried in Hc. vm_compute in Hc.
  repeat match goal with
         | H : Exists _ _ |- _ => inversion H; clear H; subst
         | H : Some _ = Some _ |- _ => discriminate H
         | H : None = Some _ |- _ => discriminate H
         end.
Qed.

(** C1, amended: the component forwards nothing.  Whatever attributes
    the caller supplies, the rendered tree is the tree rendered with no
    attributes, node for node and attribute for attribute: a supplied
    pair of name and value is carried by a node of the output only if the
    glyph carries it anyway, at every node the supplied name has the
    value it has without the caller, and a supplied [width] leaves the
    built-in 24px in place. *)
Theorem GraphIcon_keeps_defaults
    (p : SVGProps) (w : World) (k : string) (v : JsValue) :
  p !! k = Some v →
  ∃ e e0,
    value (GraphIcon p w) = Some e ∧
    value (GraphIcon ∅ w) = Some e0 ∧
    e = e0 ∧
    (carried k v e ↔ carried k v e0) ∧
    Forall2 (λ d d0, type d = type d0 ∧ props d = props d0 ∧
                     props d !! k = props d0 !! k)
            (nodes e) (nodes e0) ∧
    length (nodes e) = 6 ∧
    props e !! k = props e0 !! k ∧
    props e !! "width" = Some (VStr "24px").
Proof.
  intros _. do 2 eexists.
  split; [reflexivity|]. split; [reflexivity|].
  split; [reflexivity|]. split; [reflexivity|].
  split; [|by repeat split].
  apply Forall2_same_length_lookup. split; [reflexivity|].
  intros i d d0 Hd Hd0. rewrite Hd in Hd0. by injection Hd0 as <-.
Qed.

Lemma GraphIcon_keeps_defaults_witness :
  ({["width" := VStr "48px"]} : SVGProps) !! "width" = Some (VStr "48px") ∧
  ∃ e e0,
    value (GraphIcon {["width" := VStr "48px"]} (mkWorld ∅ ∅)) = Some e ∧
    value (GraphIcon ∅ (mkWorld ∅ ∅)) = Some e0 ∧
    e = e0 ∧
    (carried "width" (VStr "48px") e ↔ carried "width" (VStr "48px") e0) ∧
    Forall2 (λ d d0, type d = type d0 ∧ props d = props d0 ∧
                     props d !! "width" = props d0 !! "width")
            (nodes e) (nodes e0) ∧
    length (nodes e) = 6 ∧
    props e !! "width" = props e0 !! "width" ∧
    props e !! "width" = Some (VStr "24px").
Proof.
  split; [reflexivity|].
  apply (GraphIcon_keeps_defaults _ _ "width" (VStr "48px")). reflexivity.
Defined.

(** C2: the component is a constant function of its argument: any two
    attribute sets, the empty one included, give the same call, hence
    the same element tree in every world. *)
Theorem GraphIcon_constant (p1 p2 : SVGProps) :
  GraphIcon p1 = GraphIcon p2 ∧
  GraphIcon p1 = GraphIcon ∅ ∧
  ∀ w, value (GraphIcon p1 w) = value (GraphIcon p2 w).
Proof. by repeat split. Qed.

(** ** The baseline glyph *)

(** C3: with no attributes supplied the call returns the baseline glyph,
    exactly: an [svg] of width and height 24px, view box 0 0 24 24, stroke
    width 1.5, no fill and colour [currentColor] (and the SVG namespace,
    nothing else), whose children are exactly three rounded 7 by 5
    rectangles, each with a transform of its own and the stroke of the
    glyph, followed by two stroked paths.  Every element is given with
    all its attributes, so the tree is fixed down to the last one. *)
Theorem GraphIcon_baseline (w : World) :
  ∃ svg rect1 rect2 rect3 path1 path2,
    value (GraphIcon ∅ w) = Some svg ∧
    svg = element "svg"
            [("width", "24px"); ("height", "24px"); ("viewBox", "0 0 24 24");
             ("strokeWidth", "1.5"); ("fill", "none");
             ("color", "currentColor");
             ("xmlns", "http://www.w3.org/2000/svg")]
            [rect1; rect2; rect3; path1; path2] ∧
    rect1 = element "rect"
              [("width", "7"); ("height", "5"); ("rx", "0.6");
               ("transform", "matrix(0 -1 -1 0 22 21)");
               ("stroke", "currentColor"); ("strokeWidth", "1.5")] [] ∧
    rect2 = element "rect"
              [("width", "7"); ("height", "5"); ("rx", "0.6");
               ("transform", "matrix(0 -1 -1 0 7 15.5)");
               ("stroke", "currentColor"); ("strokeWidth", "1.5")] [] ∧
    rect3 = element "rect"
              [("width", "7"); ("height", "5"); ("rx", "0.6");
               ("transform", "matrix(0 -1 -1 0 22 10)");
               ("stroke", "currentColor"); ("strokeWidth", "1.5")] [] ∧
    path1 = element "path"
              [("d", "M17 17.5H13.5C12.3954 17.5 11.5 16.6046 11.5 15.5V8.5C11.5 7.39543 12.3954 6.5 13.5 6.5H17");
               ("stroke", "currentColor"); ("strokeWidth", "1.5")] [] ∧
    path2 = element "path"
              [("d", "M11.5 12H7");
               ("stroke", "currentColor"); ("strokeWidth", "1.5")] [] ∧
    type svg = "svg" ∧
    children svg = [rect1; rect2; rect3; path1; path2] ∧
    props svg !! "width" = Some (VStr "24px") ∧
    props svg !! "height" = Some (VStr "24px") ∧
    props svg !! "viewBox" = Some (VStr "0 0 24 24") ∧
    props svg !! "strokeWidth" = Some (VStr "1.5") ∧
    props svg !! "fill" = Some (VStr "none") ∧
    props svg !! "color" = Some currentColor ∧
    props svg !! "xmlns" = Some (VStr "http://www.w3.org/2000/svg") ∧
    dom (props svg) =
      ({["width"; "height"; "viewBox"; "strokeWidth"; "fill"; "color";
         "xmlns"]} : gset string) ∧
    Forall rounded_7x5 [rect1; rect2; rect3] ∧
    Forall stroked [rect1; rect2; rect3] ∧
    Forall (λ r, dom (props r) =
                 ({["width"; "height"; "rx"; "transform"; "stroke";
                    "strokeWidth"]} : gset string)) [rect1; rect2; rect3] ∧
    props rect1 !! "transform" = Some (VStr "matrix(0 -1 -1 0 22 21)") ∧
    props rect2 !! "transform" = Some (VStr "matrix(0 -1 -1 0 7 15.5)") ∧
    props rect3 !! "transform" = Some (VStr "matrix(0 -1 -1 0 22 10)") ∧
    NoDup ((λ r, props r !! "transform") <$> [rect1; rect2; rect3]) ∧
    Forall (λ c, type c = "path" ∧ is_Some (props c !! "d") ∧
                 stroked c ∧ children c = []) [path1; path2] ∧
    Forall (λ c, dom (props c) =
                 ({["d"; "stroke"; "strokeWidth"]} : gset string))
           [path1; path2] ∧
    props path1 !! "d" = Some (VStr
      "M17 17.5H13.5C12.3954 17.5 11.5 16.6046 11.5 15.5V8.5C11.5 7.39543 12.3954 6.5 13.5 6.5H17") ∧
    props path2 !! "d" = Some (VStr "M11.5 12H7").
Proof.
  do 6 eexists.
  split; [reflexivity|].
  repeat match goal with |- _ ∧ _ => split end;
    try (vm_compute; reflexivity).
  - repeat constructor.
  - repeat constructor.
  - repeat constructor; vm_compute; reflexivity.
  - vm_compute.
    repeat constructor; intros Hin;
      repeat (apply elem_of_cons in Hin as [Hin|Hin]; [discriminate Hin|]);
      by apply elem_of_nil in Hin.
  - repeat constructor; vm_compute; eauto.
  - repeat constructor; vm_compute; reflexivity.
Qed.

(** ** Repeated calls *)



(** C5: the call cannot fail.  For every attribute set, however
    ill-formed its values, and every world, it returns an element and
    never throws. *)
Theorem GraphIcon_total (p : SVGProps) (w : World) :
  Except.is_ok (GraphIcon p w) = true ∧
  (∃ e w', GraphIcon p w = Except.ok (e, w')) ∧
  ∀ thrown, GraphIcon p w ≠ Except.error thrown.
Proof.
  split; [reflexivity|]. split; [do 2 eexists; reflexivity|].
  intros thrown H. discriminate H.
Qed.

(** C6: the component is pure and stateless.  A call leaves the world
    exactly as it found it, and after any history of earlier calls it
    returns what a first call on the same attributes returns. *)
Theorem GraphIcon_pure (history : list SVGProps) (p : SVGProps) (w : World) :
  final (GraphIcon p w) = Some w ∧
  final (invocations history w) = Some w ∧
  (let* _ := invocations history in GraphIcon p) w = GraphIcon p w.
Proof.
  split; [apply GraphIcon_final|].
  rewrite (bind_ok _ _ _ _ _ (invocations_frame history w)).
  by rewrite invocations_frame.
Qed.

(** ** The data file *)

(** C7: the structural-analysis data file cannot influence the
    component: whatever two contents the file has, the element returned
    is the same, and the call leaves the file as it is. *)
Theorem GraphIcon_ignores_single_beam_xml
    (p : SVGProps) (w : World) (xml1 xml2 : string) :
  value (GraphIcon p (write_file single_beam_xml xml1 w)) =
  value (GraphIcon p (write_file single_beam_xml xml2 w)) ∧
  is_Some (value (GraphIcon p (write_file single_beam_xml xml1 w))) ∧
  final (GraphIcon p (write_file single_beam_xml xml1 w)) =
  Some (write_file single_beam_xml xml1 w).
Proof. split; [apply GraphIcon_value|]. split; [by eexists|apply GraphIcon_final]. Qed.

(** ** Uniform shapes *)

(** C8: the rectangles of the glyph are uniform.  There are three; each
    is 7 by 5 with corner radius 0.6, stroked in [currentColor] with
    weight 1.5; any two of them agree on every attribute but [transform],
    and their transforms are pairwise different.  Every child, rectangle
    or path, is stroked the same way, and the [svg] itself takes its
    colour from the context. *)
Theorem GraphIcon_uniform (p : SVGProps) (w : World) :
  ∃ svg,
    value (GraphIcon p w) = Some svg ∧
    length (rects svg) = 3 ∧
    Forall (λ r, rounded_7x5 r ∧ stroked r) (rects svg) ∧
    Forall (λ r, Forall (λ r', delete "transform" (props r) =
                               delete "transform" (props r')) (rects svg))
           (rects svg) ∧
    NoDup ((λ r, props r !! "transform") <$> rects svg) ∧
    Forall stroked (children svg) ∧
    props svg !! "color" = Some currentColor.
Proof.
  eexists. split; [reflexivity|].
  repeat match goal with |- _ ∧ _ => split end;
    try (vm_compute; reflexivity).
  - repeat constructor.
  - repeat constructor.
  - vm_compute.
    repeat constructor; intros Hin;
      repeat (apply elem_of_cons in Hin as [Hin|Hin]; [discriminate Hin|]);
      by apply elem_of_nil in Hin.
  - repeat constructor.
Qed.

(** ** What never reaches the output *)

Lemma attrs_dom_from (l : list (string * string)) (m : gmap string JsValue) :
  dom (foldl (λ m kv, <[kv.1 := VStr kv.2]> m) m l) = dom m ∪ list_to_set l.*1.
Proof.
  revert m. induction l as [|[k s] l IH]; intros m; simpl.
  - by rewrite (right_id_L _ _).
  - rewrite IH, dom_insert_L. by rewrite (comm_L _ {[k]}), (assoc_L _).
Qed.

Lemma attrs_dom (l : list (string * string)) :
  dom (attrs l) = list_to_set l.*1.
Proof. unfold attrs. by rewrite attrs_dom_from, dom_empty_L, (left_id_L _ _). Qed.

Lemma attrs_strings_from (l : list (string * string)) (m : gmap string JsValue) :
  map_Forall (λ _ v, is_string v) m →
  map_Forall (λ _ v, is_string v)
    (foldl (λ m kv, <[kv.1 := VStr kv.2]> m) m l).
Proof.
  revert m. induction l as [|[k s] l IH]; intros m Hm; simpl; [done|].
  apply IH, map_Forall_insert_2; [by eexists|done].
Qed.

Lemma attrs_strings (l : list (string * string)) :
  map_Forall (λ _ v, is_string v) (attrs l).
Proof. apply attrs_strings_from, map_Forall_empty. Qed.

(** X1: whatever the caller supplies, the call returns a tree of six
    nodes, and the props object of each of them has only keys written in
    the JSX, besides [children], which the [svg] alone has: a class name,
    a style, an id, an event handler or an accessibility attribute never
    reaches any node. *)
Theorem GraphIcon_vocabulary (p : SVGProps) (w : World) :
  ∃ svg,
    value (GraphIcon p w) = Some svg ∧
    length (nodes svg) = 6 ∧
    Forall (λ d, dom (props d) ⊆ vocabulary) (nodes svg) ∧
    Forall (λ d, props_keys d ⊆ vocabulary ∪ {["children"]}) (nodes svg) ∧
    "children" ∈ props_keys svg ∧
    Forall (λ c, "children" ∉ props_keys c) (children svg) ∧
    Forall (λ d, Forall (λ k, k ∉ props_keys d)
                   ["className"; "style"; "id"; "onClick"; "role";
                    "aria-label"; "tabIndex"])
           (nodes svg).
Proof.
  eexists. split; [reflexivity|]. split; [reflexivity|].
  assert (Hvoc : Forall (λ d, props_keys d ⊆ vocabulary ∪ {["children"]})
                   (rendered p w)).
  { unfold rendered, GraphIcon, React.createElement, bind, ret, value.
    cbn [from_option nodes flat_map app].
    repeat constructor; unfold props_keys; cbn [props children];
      rewrite attrs_dom; apply (bool_decide_unpack _); vm_compute; exact I. }
  split; [|split; [exact Hvoc|]].
  { unfold GraphIcon, React.createElement, bind, ret.
    cbn [nodes flat_map app].
    repeat constructor; cbn [props]; rewrite attrs_dom;
      apply (bool_decide_unpack _); vm_compute; exact I. }
  split; [apply (bool_decide_unpack _); vm_compute; exact I|].
  split; [repeat constructor; apply (bool_decide_unpack _); vm_compute; exact I|].
  eapply Forall_impl; [exact Hvoc|].
  intros d Hd. cbn beta in Hd.
  repeat constructor; intros Hk;
    apply Hd in Hk; vm_compute in Hk; discriminate Hk.
Qed.

(** X2: every attribute value of every node of the rendered tree is a
    string: no number, boolean, null or object the caller passes shows up
    as a value. *)
Theorem GraphIcon_string_values (p : SVGProps) (w : World) :
  Forall (λ d, map_Forall (λ _ v, is_string v) (props d)) (rendered p w) ∧
  length (rendered p w) = 6.
Proof.
  split; [|reflexivity].
  unfold rendered, GraphIcon, React.createElement, bind, ret, value.
  cbn [from_option nodes flat_map app props].
  repeat constructor; cbn [props]; apply attrs_strings.
Qed.

(** X3: no shape of the glyph paints for itself: the [svg] sets fill
    [none], and no rectangle or path carries a [fill], a [color], a
    [style] or a [className] of its own, so every shape is an outline in
    the colour of the context. *)
Theorem GraphIcon_outline_only (p : SVGProps) (w : World) :
  ∃ svg,
    value (GraphIcon p w) = Some svg ∧
    props svg !! "fill" = Some (VStr "none") ∧
    Forall (λ c, props c !! "fill" = None ∧ props c !! "color" = None ∧
                 props c !! "style" = None ∧ props c !! "className" = None)
           (children svg).
Proof.
  eexists. split; [reflexivity|]. split; [reflexivity|].
  repeat constructor.
Qed.
